(** * Terminal contact form: the step machine of [contact-form.tsx]

    A shallow embedding of the [ContactForm] component: its two pieces of
    React state ([form] and [isSubmitted]), the handlers that update them,
    the part of the render that decides which controls are on screen, and
    the effect keyed on [form.step].

    [step] is a JavaScript number that starts at 1 and is only ever
    incremented by 1 or reset to 1; it is modelled as [Z], on which the
    arithmetic of the code is exact. *)

From Stdlib Require Import ZArith String List Bool Lia.
Import ListNotations.

Local Open Scope Z_scope.

(** ** Constants and state (lines 5-22) *)

Definition FIRST_STEP : Z := 1.
Definition LAST_STEP : Z := 4.

Record FormState : Type := mkFormState
  { step : Z;
    name : string;
    email : string;
    description : string }.

(** The two [useState] cells of the component. *)
Record Component : Type := mkComponent
  { form : FormState;
    isSubmitted : bool }.

(** [useState] initial values: the component as mounted. *)
Definition mount : Component :=
  {| form := {| step := FIRST_STEP; name := ""; email := ""; description := "" |};
     isSubmitted := false |}.

(** [setForm] with an updater function, and [setIsSubmitted]. *)
Definition setForm (upd : FormState -> FormState) (c : Component) : Component :=
  {| form := upd (form c); isSubmitted := isSubmitted c |}.

Definition setIsSubmitted (b : bool) (c : Component) : Component :=
  {| form := form c; isSubmitted := b |}.

(** [useMemo(() => form.step === LAST_STEP, [form.step])] *)
Definition isLastStep (c : Component) : bool := step (form c) =? LAST_STEP.

(** ** What the render puts on screen (lines 95-174) *)

Inductive Field : Type := Email | Name | Description.

Inductive Widget : Type :=
| InputField (f : Field) (value : string)   (* renderInputField: Input + caret span *)
| CompletedField (value : string)           (* renderCompletedField *)
| ShowResult (e n d : string)
| Buttons
| SentMessage.

Definition emailStep (f : FormState) : list Widget :=
  if step f =? FIRST_STEP then [InputField Email (email f)]
  else if step f >? FIRST_STEP then [CompletedField (email f)]
  else [].

Definition nameStep (f : FormState) : list Widget :=
  if step f >=? 2 then
    if step f =? 2 then [InputField Name (name f)]
    else if step f >? 2 then [CompletedField (name f)]
    else []
  else [].

Definition descriptionStep (f : FormState) : list Widget :=
  if step f >=? 3 then
    if step f =? 3 then [InputField Description (description f)]
    else if step f >? 3 then [CompletedField (description f)]
    else []
  else [].

Definition resultsAndButtons (c : Component) : list Widget :=
  if isLastStep c then
    ShowResult (email (form c)) (name (form c)) (description (form c))
      :: (if negb (isSubmitted c) then [Buttons] else [])
  else [].

Definition sentNotice (c : Component) : list Widget :=
  if isSubmitted c then [SentMessage] else [].

Definition render (c : Component) : list Widget :=
  emailStep (form c) ++ nameStep (form c) ++ descriptionStep (form c)
    ++ resultsAndButtons c ++ sentNotice c.

(** The field whose [renderInputField] output is on screen, if any. *)
Fixpoint firstInput (ws : list Widget) : option Field :=
  match ws with
  | [] => None
  | InputField f _ :: _ => Some f
  | _ :: ws' => firstInput ws'
  end.

(** [spanRef.current] after the commit of [render c]: the caret [span] is
    part of [renderInputField], so the ref points to it while an input is on
    screen and is [null] otherwise. *)
Definition spanRef (c : Component) : option Field := firstInput (render c).

(** Modelled from the spec: the [Input] component of [./ui/input] is not
    among the sources. Following section 4.3 (the entry control hands its
    raw value-change and confirm-key events to the callbacks, and is what
    receives focus), it is taken to pass [ref], [onChange] and [onKeyDown]
    on to one native input, so [inputRef.current] is that input while
    [renderInputField] is on screen and [null] otherwise. *)
Definition inputRef (c : Component) : option Field := firstInput (render c).

Definition isButtons (w : Widget) : bool :=
  match w with Buttons => true | _ => false end.

Definition buttonsRendered (c : Component) : bool := existsb isButtons (render c).

(** ** Browser side effects *)

Inductive Effect : Type :=
| ClassListReplace (old new : string)   (* spanRef.current.classList.replace *)
| Focus                                 (* inputRef.current.focus() *)
| Alert (msg : string).

Definition Effect_eq_dec (a b : Effect) : {a = b} + {a <> b}.
Proof. repeat decide equality. Defined.

Definition showCaret : Effect := ClassListReplace "hidden" "inline-block".

(** ** Handlers (lines 29-59) *)

Definition handleVisibleSpan (c : Component) : list Effect :=
  match spanRef c with
  | Some _ => [showCaret]
  | None => []
  end.

Definition handleFocusOnInput (c : Component) : list Effect :=
  match inputRef c with
  | Some _ => [Focus]
  | None => []
  end.

Definition handleNextStep : Component -> Component :=
  setForm (fun prev =>
    {| step := step prev + 1; name := name prev;
       email := email prev; description := description prev |}).

Definition handleRestart (c : Component) : Component :=
  setIsSubmitted false
    (setForm (fun _ =>
       {| step := FIRST_STEP; name := ""; email := ""; description := "" |}) c).

Definition handleSend (c : Component) : Component * list Effect :=
  (setIsSubmitted true c, [Alert "Form submitted!"]).

Definition handleClick (c : Component) : list Effect :=
  handleVisibleSpan c ++ handleFocusOnInput c.

(** The body of the effect, and the effect with its dependency list
    [[form.step]]: it runs after the first commit ([prev = None]) and after
    every commit whose [form.step] differs from the previous one. *)
Definition stepEffect (c : Component) : list Effect :=
  if step (form c) =? FIRST_STEP then [] else handleClick c.

Definition useEffect (prev : option Z) (c : Component) : list Effect :=
  match prev with
  | None => stepEffect c
  | Some p => if p =? step (form c) then [] else stepEffect c
  end.

(** ** Callbacks of the rendered input (lines 61-74, 114-147) *)

Definition onChange (f : Field) (value : string) : Component -> Component :=
  match f with
  | Email => setForm (fun prev =>
      {| step := step prev; name := name prev;
         email := value; description := description prev |})
  | Name => setForm (fun prev =>
      {| step := step prev; name := value;
         email := email prev; description := description prev |})
  | Description => setForm (fun prev =>
      {| step := step prev; name := name prev;
         email := email prev; description := value |})
  end.

(** [e.key === "Enter" && handleNextStep()] *)
Definition onKeyDown (key : string) (c : Component) : Component :=
  if String.eqb key "Enter" then handleNextStep c else c.

(** ** User events

    An event reaches a handler only when the control that carries the
    handler is on screen; otherwise nothing happens.  A click on a button
    bubbles to the surrounding [div], whose [onClick] is [handleClick]. *)

Inductive Event : Type :=
| Change (value : string)    (* typing in the rendered input *)
| KeyDown (key : string)     (* a key pressed in the rendered input *)
| Click                      (* a click on the form surface *)
| ClickRestart
| ClickSend.

Definition handleEvent (c : Component) (e : Event) : Component * list Effect :=
  match e with
  | Change value =>
      match inputRef c with
      | Some f => (onChange f value c, [])
      | None => (c, [])
      end
  | KeyDown key =>
      match inputRef c with
      | Some _ => (onKeyDown key c, [])
      | None => (c, [])
      end
  | Click => (c, handleClick c)
  | ClickRestart =>
      if buttonsRendered c then (handleRestart c, handleClick c) else (c, [])
  | ClickSend =>
      if buttonsRendered c then
        let (c', eff) := handleSend c in (c', eff ++ handleClick c)
      else (c, [])
  end.

(** One turn of the event loop: the handler, then the commit and the
    effect of the new render. *)
Definition dispatch (c : Component) (e : Event) : Component * list Effect :=
  let (c', eff) := handleEvent c e in
  (c', eff ++ useEffect (Some (step (form c))) c').

Definition next (c : Component) (e : Event) : Component := fst (dispatch c e).

Definition runEvents (c : Component) (es : list Event) : Component :=
  fold_left next es c.

Inductive reachable : Component -> Prop :=
| reachable_mount : reachable mount
| reachable_next c e : reachable c -> reachable (next c e).

(** The four operations at handler level, without the gating of the render. *)
Inductive Op : Type :=
| updateField (f : Field) (value : string)
| advance
| restart
| submit.

Definition runOp (c : Component) (o : Op) : Component :=
  match o with
  | updateField f value => onChange f value c
  | advance => handleNextStep c
  | restart => handleRestart c
  | submit => fst (handleSend c)
  end.

Definition runOps (c : Component) (os : list Op) : Component :=
  fold_left runOp os c.

Definition isRestart (o : Op) : bool :=
  match o with restart => true | _ => false end.

Definition getField (f : Field) (c : Component) : string :=
  match f with
  | Email => email (form c)
  | Name => name (form c)
  | Description => description (form c)
  end.

(** Two states of scenario B: the description step and the review step. *)
Definition atDescription : Component :=
  {| form := {| step := 3; name := "Ada"; email := "a@b.com";
                description := "need help" |};
     isSubmitted := false |}.

Definition review : Component :=
  {| form := {| step := LAST_STEP; name := "Ada"; email := "a@b.com";
                description := "need help" |};
     isSubmitted := false |}.

(** ** Vocabulary for statements about the render and about runs *)

(** The step at which the input of each field is rendered (lines 114, 128
    and 143). *)
Definition fieldStep (f : Field) : Z :=
  match f with
  | Email => FIRST_STEP
  | Name => 2
  | Description => 3
  end.

(** The three fields in the order of the page. *)
Definition fields : list Field := [Email; Name; Description].

Definition isInput (w : Widget) : bool :=
  match w with InputField _ _ => true | _ => false end.

Definition isAlert (x : Effect) : bool :=
  match x with Alert _ => true | _ => false end.

Definition isClickRestart (e : Event) : bool :=
  match e with ClickRestart => true | _ => false end.

(** The side effects of a run of events, in the order they happen. *)
Fixpoint runTrace (c : Component) (es : list Event) : list Effect :=
  match es with
  | [] => []
  | e :: es' => snd (dispatch c e) ++ runTrace (next c e) es'
  end.

(** The shape of the states the events can produce: the step is between 1
    and 4, the form is sent only at the review step, and the fields whose
    step has not been reached yet are still empty. *)
Definition wellFormed (c : Component) : Prop :=
  1 <= step (form c) <= 4
  /\ (isSubmitted c = true -> step (form c) = 4)
  /\ forall g, step (form c) < fieldStep g -> getField g c = EmptyString.

(** What one event can do to the state: nothing, or the one handler call
    that the control on screen makes. *)
Inductive Outcome (c : Component) : Event -> Component -> Prop :=
| nothing e : Outcome c e c
| edited f v : inputRef c = Some f -> Outcome c (Change v) (onChange f v c)
| advanced f : inputRef c = Some f -> Outcome c (KeyDown "Enter") (handleNextStep c)
| restarted : buttonsRendered c = true -> Outcome c ClickRestart (handleRestart c)
| sent : buttonsRendered c = true -> Outcome c ClickSend (setIsSubmitted true c).

(** ** Facts about the render *)

Ltac step_cases :=
  repeat match goal with
  | |- context [?a =? ?b] => destruct (Z.eqb_spec a b)
  | |- context [?a >? ?b] => rewrite (Z.gtb_ltb a b)
  | |- context [?a >=? ?b] => rewrite (Z.geb_leb a b)
  | |- context [?a <? ?b] => destruct (Z.ltb_spec a b)
  | |- context [?a <=? ?b] => destruct (Z.leb_spec a b)
  end; try lia; try reflexivity.

Lemma inputRef_spec c :
  inputRef c =
    if step (form c) =? 1 then Some Email
    else if step (form c) =? 2 then Some Name
    else if step (form c) =? 3 then Some Description
    else None.
Proof.
  unfold inputRef, render, emailStep, nameStep, descriptionStep,
    resultsAndButtons, sentNotice, isLastStep, FIRST_STEP, LAST_STEP.
  destruct c as [[s n e d] b]; cbn [form step isSubmitted].
  step_cases; destruct b; reflexivity.
Qed.

Lemma buttonsRendered_spec c :
  buttonsRendered c = (step (form c) =? 4) && negb (isSubmitted c).
Proof.
  unfold buttonsRendered, render, emailStep, nameStep, descriptionStep,
    resultsAndButtons, sentNotice, isLastStep, FIRST_STEP, LAST_STEP.
  destruct c as [[s n e d] b]; cbn [form step isSubmitted].
  step_cases; destruct b; reflexivity.
Qed.

Lemma inputRef_Some c f :
  inputRef c = Some f ->
  (f = Email /\ step (form c) = 1) \/
  (f = Name /\ step (form c) = 2) \/
  (f = Description /\ step (form c) = 3).
Proof.
  rewrite inputRef_spec.
  destruct (Z.eqb_spec (step (form c)) 1); [intros [= <-]; auto|].
  destruct (Z.eqb_spec (step (form c)) 2); [intros [= <-]; auto|].
  destruct (Z.eqb_spec (step (form c)) 3); [intros [= <-]; auto|].
  discriminate.
Qed.

Lemma inputRef_None c :
  inputRef c = None <-> step (form c) <> 1 /\ step (form c) <> 2 /\ step (form c) <> 3.
Proof.
  rewrite inputRef_spec. split.
  - destruct (Z.eqb_spec (step (form c)) 1); [discriminate|].
    destruct (Z.eqb_spec (step (form c)) 2); [discriminate|].
    destruct (Z.eqb_spec (step (form c)) 3); [discriminate|].
    auto.
  - intros (H1 & H2 & H3). step_cases.
Qed.

(** ** Scenarios A-D of the specification, run on the model *)

Example scenario_A :
  runEvents mount [Change "a@b.com"; KeyDown "Enter"]
  = {| form := {| step := 2; name := ""; email := "a@b.com"; description := "" |};
       isSubmitted := false |}.
Proof. reflexivity. Qed.

Example scenario_B :
  runEvents mount
    [Change "a@b.com"; KeyDown "Enter"; Change "Ada"; KeyDown "Enter";
     Change "need help"; KeyDown "Enter"]
  = {| form := {| step := 4; name := "Ada"; email := "a@b.com";
                  description := "need help" |};
       isSubmitted := false |}.
Proof. reflexivity. Qed.

Example scenario_C :
  runEvents mount
    [Change "a@b.com"; KeyDown "Enter"; Change "Ada"; KeyDown "Enter";
     Change "need help"; KeyDown "Enter"; ClickSend; KeyDown "Enter"]
  = {| form := {| step := 4; name := "Ada"; email := "a@b.com";
                  description := "need help" |};
       isSubmitted := true |}.
Proof. reflexivity. Qed.

(** Restart from the review step, before sending. *)
Example scenario_restart :
  runEvents mount
    [Change "a@b.com"; KeyDown "Enter"; Change "Ada"; KeyDown "Enter";
     Change "need help"; KeyDown "Enter"; ClickRestart]
  = mount.
Proof. reflexivity. Qed.

(** Scenario D on the handlers. On screen the Restart button is gone once
    the form is sent ([!isSubmitted && <Buttons .../>]), so the click
    cannot happen there. *)
Example scenario_D :
  runOps mount
    [updateField Email "a@b.com"; advance; updateField Name "Ada"; advance;
     updateField Description "need help"; advance; submit; restart]
  = mount.
Proof. reflexivity. Qed.

Example restart_hidden_after_send :
  runEvents mount
    [KeyDown "Enter"; KeyDown "Enter"; KeyDown "Enter"; ClickSend; ClickRestart]
  = {| form := {| step := 4; name := ""; email := ""; description := "" |};
       isSubmitted := true |}.
Proof. reflexivity. Qed.

(** ** The advance operation *)

(** C1: for every state with 1 <= step <= 3, [handleNextStep] yields a
    state whose step is the old step plus exactly 1 (so 2, 3 or 4: no skip,
    no wrap). *)
Theorem handleNextStep_increments (c : Component) :
  1 <= step (form c) <= 3 ->
  step (form (handleNextStep c)) = step (form c) + 1
  /\ 2 <= step (form (handleNextStep c)) <= 4.
Proof.
  intros H. unfold handleNextStep, setForm. cbn [form step]. lia.
Qed.

Lemma handleNextStep_increments_witness :
  1 <= step (form mount) <= 3
  /\ step (form (handleNextStep mount)) = step (form mount) + 1
  /\ 2 <= step (form (handleNextStep mount)) <= 4.
Proof.
  assert (H : 1 <= step (form mount) <= 3) by (cbn; unfold FIRST_STEP; lia).
  split; [exact H | apply (handleNextStep_increments mount H)].
Defined.

(** C9: [handleNextStep] changes only [step]: email, name, description and
    the [isSubmitted] flag are the same before and after the call. *)
Theorem handleNextStep_frame (c : Component) :
  email (form (handleNextStep c)) = email (form c)
  /\ name (form (handleNextStep c)) = name (form c)
  /\ description (form (handleNextStep c)) = description (form c)
  /\ isSubmitted (handleNextStep c) = isSubmitted c.
Proof.
  unfold handleNextStep, setForm. cbn. repeat split.
Qed.

Lemma handleNextStep_step c : step (form (handleNextStep c)) = step (form c) + 1.
Proof. reflexivity. Qed.

Lemma handleNextStep_neq c : handleNextStep c <> c.
Proof.
  intros H. apply (f_equal (fun x => step (form x))) in H.
  rewrite handleNextStep_step in H. lia.
Qed.

Lemma useEffect_same_step c c' :
  step (form c') = step (form c) -> useEffect (Some (step (form c))) c' = [].
Proof.
  intros H. unfold useEffect. rewrite H, Z.eqb_refl. reflexivity.
Qed.

Lemma dispatch_KeyDown_no_input c key :
  inputRef c = None -> dispatch c (KeyDown key) = (c, []).
Proof.
  intros H. unfold dispatch, handleEvent. rewrite H.
  rewrite useEffect_same_step; reflexivity.
Qed.

(** C2, as stated, fails: [handleNextStep] has no guard, and at step 4 it
    yields step 5. *)
Lemma handleNextStep_at_last_step_counterexample :
  step (form review) = 4
  /\ step (form (handleNextStep review)) = 5
  /\ handleNextStep review <> review.
Proof.
  repeat split. apply handleNextStep_neq.
Qed.

(** C2, amended: at step 4 [handleNextStep] itself would yield step 5, but
    no input is rendered there, so a key press (the only caller of
    [handleNextStep]) changes nothing and has no effect: the Enter-key
    advance at step 4 is a no-op. *)
Theorem advance_at_last_step (c : Component) :
  step (form c) = 4 ->
  step (form (handleNextStep c)) = 5
  /\ inputRef c = None
  /\ forall key, dispatch c (KeyDown key) = (c, []).
Proof.
  intros H.
  assert (Hnone : inputRef c = None) by (apply inputRef_None; lia).
  repeat split.
  - rewrite handleNextStep_step. lia.
  - exact Hnone.
  - intros key. now apply dispatch_KeyDown_no_input.
Qed.

Lemma advance_at_last_step_witness :
  step (form review) = 4
  /\ step (form (handleNextStep review)) = 5
  /\ inputRef review = None
  /\ forall key, dispatch review (KeyDown key) = (review, []).
Proof.
  assert (H : step (form review) = 4) by reflexivity.
  split; [exact H | apply (advance_at_last_step review H)].
Defined.

(** ** Restart and submit *)

(** C3: from every state, hence from every reachable one, [handleRestart]
    yields step 1, the three fields empty and [isSubmitted] false, that is,
    the component as mounted. *)
Theorem handleRestart_resets (c : Component) :
  handleRestart c = mount
  /\ step (form (handleRestart c)) = 1
  /\ email (form (handleRestart c)) = EmptyString
  /\ name (form (handleRestart c)) = EmptyString
  /\ description (form (handleRestart c)) = EmptyString
  /\ isSubmitted (handleRestart c) = false.
Proof.
  unfold handleRestart, setIsSubmitted, setForm, mount. cbn. repeat split.
Qed.

Lemma dispatch_ClickSend_hidden c :
  buttonsRendered c = false -> dispatch c ClickSend = (c, []).
Proof.
  intros H. unfold dispatch, handleEvent. rewrite H.
  rewrite useEffect_same_step; reflexivity.
Qed.

Lemma handleClick_no_input c : inputRef c = None -> handleClick c = [].
Proof.
  intros H. unfold handleClick, handleVisibleSpan, handleFocusOnInput.
  change (spanRef c) with (inputRef c). rewrite H. reflexivity.
Qed.

Lemma dispatch_ClickSend_shown c :
  buttonsRendered c = true ->
  dispatch c ClickSend = (setIsSubmitted true c, [Alert "Form submitted!"]).
Proof.
  intros H. unfold dispatch, handleEvent. rewrite H. cbn [handleSend].
  rewrite buttonsRendered_spec in H. apply andb_prop in H as [H4 _].
  apply Z.eqb_eq in H4.
  rewrite handleClick_no_input by (apply inputRef_None; lia).
  rewrite useEffect_same_step; reflexivity.
Qed.

(** C4: the Send button is on screen only at step 4 (and only while not
    yet sent), so submit does nothing unless the step is 4; at step 4 with
    [isSubmitted] false it sets [isSubmitted] to true and leaves the step and
    the three fields as they are. *)
Theorem submit_only_at_last_step (c : Component) :
  (step (form c) <> 4 -> dispatch c ClickSend = (c, []))
  /\ (step (form c) = 4 -> isSubmitted c = false ->
      isSubmitted (next c ClickSend) = true
      /\ step (form (next c ClickSend)) = 4
      /\ email (form (next c ClickSend)) = email (form c)
      /\ name (form (next c ClickSend)) = name (form c)
      /\ description (form (next c ClickSend)) = description (form c)).
Proof.
  split.
  - intros H. apply dispatch_ClickSend_hidden.
    rewrite buttonsRendered_spec.
    destruct (Z.eqb_spec (step (form c)) 4); [contradiction | reflexivity].
  - intros H Hs. unfold next. rewrite dispatch_ClickSend_shown.
    + cbn. auto.
    + rewrite buttonsRendered_spec, H, Hs. reflexivity.
Qed.

Lemma submit_only_at_last_step_witness :
  (step (form atDescription) <> 4
   /\ dispatch atDescription ClickSend = (atDescription, []))
  /\ (step (form review) = 4 /\ isSubmitted review = false
      /\ isSubmitted (next review ClickSend) = true
      /\ step (form (next review ClickSend)) = 4
      /\ email (form (next review ClickSend)) = email (form review)
      /\ name (form (next review ClickSend)) = name (form review)
      /\ description (form (next review ClickSend)) = description (form review)).
Proof.
  assert (H3 : step (form atDescription) <> 4) by (cbn; lia).
  assert (H4 : step (form review) = 4) by reflexivity.
  assert (Hs : isSubmitted review = false) by reflexivity.
  split.
  - split; [exact H3 | apply (proj1 (submit_only_at_last_step atDescription) H3)].
  - split; [exact H4 | split; [exact Hs |]].
    apply (proj2 (submit_only_at_last_step review) H4 Hs).
Defined.

(** ** Field edits *)

Section FieldEdits.

Variables (f : Field) (value : string) (c : Component).

Lemma onChange_step : step (form (onChange f value c)) = step (form c).
Proof. destruct f; reflexivity. Qed.

Lemma onChange_isSubmitted : isSubmitted (onChange f value c) = isSubmitted c.
Proof. destruct f; reflexivity. Qed.

Lemma onChange_written : getField f (onChange f value c) = value.
Proof. destruct f; reflexivity. Qed.

Lemma onChange_others g : g <> f -> getField g (onChange f value c) = getField g c.
Proof. destruct f, g; intros H; try reflexivity; now contradiction H. Qed.

Lemma onChange_inputRef : inputRef (onChange f value c) = inputRef c.
Proof. now rewrite !inputRef_spec, onChange_step. Qed.

Lemma next_Change : inputRef c = Some f -> next c (Change value) = onChange f value c.
Proof.
  intros H. unfold next, dispatch, handleEvent. rewrite H.
  rewrite useEffect_same_step by apply onChange_step. reflexivity.
Qed.

End FieldEdits.

Lemma last_cons {A} (l : list A) (a d : A) : last (a :: l) d = last l a.
Proof.
  revert a d. induction l as [|b l IH]; intros a d; [reflexivity|].
  change (last (a :: b :: l) d) with (last (b :: l) d).
  now rewrite !IH.
Qed.

Lemma runEvents_Changes (vs : list string) :
  forall c f, inputRef c = Some f ->
    let c' := runEvents c (map Change vs) in
    step (form c') = step (form c)
    /\ isSubmitted c' = isSubmitted c
    /\ (forall g, g <> f -> getField g c' = getField g c)
    /\ getField f c' = last vs (getField f c).
Proof.
  induction vs as [|v vs IH]; intros c f Hf; cbn zeta.
  - cbn. auto.
  - cbn [map runEvents fold_left]. rewrite (next_Change f v c Hf).
    destruct (IH (onChange f v c) f) as (Hs & Hb & Ho & Hl).
    { now rewrite onChange_inputRef. }
    unfold runEvents in *. rewrite Hs, Hb, Hl, last_cons.
    rewrite onChange_step, onChange_isSubmitted, onChange_written.
    repeat split. intros g Hg. rewrite Ho by exact Hg.
    now apply onChange_others.
Qed.

(** C5: while a field [f] is the active one, after any sequence of edits
    that field holds the last value written, and at every point of the
    sequence (after every prefix) the step, the two other fields and
    [isSubmitted] are what they were at the start. *)
Theorem edits_keep_last_value (c : Component) (f : Field) (vs : list string) :
  inputRef c = Some f ->
  getField f (runEvents c (map Change vs)) = last vs (getField f c)
  /\ forall k,
       step (form (runEvents c (map Change (firstn k vs)))) = step (form c)
       /\ isSubmitted (runEvents c (map Change (firstn k vs))) = isSubmitted c
       /\ forall g, g <> f ->
            getField g (runEvents c (map Change (firstn k vs))) = getField g c.
Proof.
  intros Hf. split.
  - apply (runEvents_Changes vs c f Hf).
  - intros k.
    destruct (runEvents_Changes (firstn k vs) c f Hf) as (Hs & Hb & Ho & _).
    auto.
Qed.

Lemma edits_keep_last_value_witness :
  inputRef mount = Some Email
  /\ getField Email (runEvents mount (map Change ["a"; "a@"; "a@b.com"]%string))
     = "a@b.com"%string
  /\ forall k,
       step (form (runEvents mount
         (map Change (firstn k ["a"; "a@"; "a@b.com"]%string)))) = 1
       /\ isSubmitted (runEvents mount
         (map Change (firstn k ["a"; "a@"; "a@b.com"]%string))) = false
       /\ forall g, g <> Email ->
            getField g (runEvents mount
              (map Change (firstn k ["a"; "a@"; "a@b.com"]%string)))
            = getField g mount.
Proof.
  assert (H : inputRef mount = Some Email) by reflexivity.
  split; [exact H |].
  exact (edits_keep_last_value mount Email ["a"; "a@"; "a@b.com"]%string H).
Defined.

(** ** The step stays between 1 and 4 *)

Lemma next_step_range c e :
  1 <= step (form c) <= 4 -> 1 <= step (form (next c e)) <= 4.
Proof.
  intros H. unfold next, dispatch, handleEvent.
  destruct e as [v | key | | |].
  - destruct (inputRef c) as [f|]; cbn [fst]; [rewrite onChange_step|]; exact H.
  - destruct (inputRef c) as [f|] eqn:Hf; cbn [fst]; [|exact H].
    unfold onKeyDown. destruct (String.eqb key "Enter"); [|exact H].
    rewrite handleNextStep_step.
    destruct (inputRef_Some c f Hf) as [[_ E]|[[_ E]|[_ E]]]; lia.
  - exact H.
  - destruct (buttonsRendered c); cbn [fst]; [|exact H].
    cbn. unfold FIRST_STEP. lia.
  - destruct (buttonsRendered c); cbn [fst handleSend]; exact H.
Qed.

Lemma reachable_runEvents es : forall c, reachable c -> reachable (runEvents c es).
Proof.
  induction es as [|e es IH]; intros c Hc; [exact Hc|].
  apply IH. now constructor.
Qed.

(** C6: in every state reachable from the mounted component by user events
    (edits, key presses in the rendered input, clicks on the surface, on
    Restart and on Send), the step is between 1 and 4 inclusive. *)
Theorem reachable_step_range (c : Component) :
  reachable c -> 1 <= step (form c) <= 4.
Proof.
  induction 1 as [|c e _ IH].
  - cbn. unfold FIRST_STEP. lia.
  - now apply next_step_range.
Qed.

Lemma reachable_step_range_witness :
  reachable review /\ 1 <= step (form review) <= 4.
Proof.
  assert (H : reachable review).
  { apply (reachable_runEvents
      [Change "a@b.com"; KeyDown "Enter"; Change "Ada"; KeyDown "Enter";
       Change "need help"; KeyDown "Enter"] mount reachable_mount). }
  split; [exact H | exact (reachable_step_range review H)].
Defined.

(** ** Once sent, sent until restart *)

Lemma runOp_keeps_sent c o :
  isSubmitted c = true -> isRestart o = false -> isSubmitted (runOp c o) = true.
Proof.
  intros Hc Ho. destruct o as [f v | | |]; cbn.
  - now rewrite onChange_isSubmitted.
  - exact Hc.
  - discriminate Ho.
  - reflexivity.
Qed.

Lemma runOps_keeps_sent os :
  forall c, isSubmitted c = true -> existsb isRestart os = false ->
            isSubmitted (runOps c os) = true.
Proof.
  induction os as [|o os IH]; intros c Hc Hos; [exact Hc|].
  cbn [existsb] in Hos. apply orb_false_elim in Hos as [Ho Hos].
  cbn [runOps fold_left]. apply IH; [|exact Hos].
  now apply runOp_keeps_sent.
Qed.

(** C7: [handleSend] sets [isSubmitted] to true; from then on it stays true
    under every sequence of field updates, advances and submits that
    contains no restart; [handleRestart] sets it to false, and an operation
    that takes it from true to false can only be restart. *)
Theorem sent_until_restart (c : Component) (os : list Op) :
  existsb isRestart os = false ->
  isSubmitted (fst (handleSend c)) = true
  /\ isSubmitted (runOps (fst (handleSend c)) os) = true
  /\ isSubmitted (runOp (runOps (fst (handleSend c)) os) restart) = false
  /\ forall c' o, isSubmitted c' = true -> isSubmitted (runOp c' o) = false ->
                  o = restart.
Proof.
  intros Hos. repeat split.
  - now apply runOps_keeps_sent.
  - intros c' o Hc' Ho. destruct o as [f v | | |]; [ | | reflexivity | ].
    + cbn in Ho. rewrite onChange_isSubmitted in Ho. congruence.
    + cbn in Ho. congruence.
    + cbn in Ho. discriminate.
Qed.

Lemma sent_until_restart_witness :
  existsb isRestart [advance; updateField Name "Ada"; submit; advance] = false
  /\ isSubmitted
       (runOps (fst (handleSend review))
          [advance; updateField Name "Ada"; submit; advance]) = true.
Proof.
  assert (H : existsb isRestart
                [advance; updateField Name "Ada"; submit; advance] = false)
    by reflexivity.
  split; [exact H |].
  exact (proj1 (proj2 (sent_until_restart review _ H))).
Defined.

(** On screen the statement is stronger: once sent, the buttons are no
    longer rendered, so no user event changes [isSubmitted] again. *)
Lemma next_keeps_sent c e : isSubmitted c = true -> isSubmitted (next c e) = true.
Proof.
  intros H. unfold next, dispatch, handleEvent.
  assert (Hb : buttonsRendered c = false).
  { rewrite buttonsRendered_spec, H. apply andb_false_r. }
  destruct e as [v | key | | |]; rewrite ?Hb; cbn [fst]; try exact H.
  - destruct (inputRef c); cbn [fst]; [rewrite onChange_isSubmitted|]; exact H.
  - destruct (inputRef c); cbn [fst]; [|exact H].
    unfold onKeyDown. destruct (String.eqb key "Enter"); exact H.
Qed.

(** ** The Enter key *)

Lemma onKeyDown_Enter c : onKeyDown "Enter" c = handleNextStep c.
Proof. reflexivity. Qed.

Lemma onKeyDown_other key c : key <> "Enter"%string -> onKeyDown key c = c.
Proof.
  intros H. unfold onKeyDown.
  destruct (String.eqb_spec key "Enter"); [contradiction | reflexivity].
Qed.

Lemma next_KeyDown c f key : inputRef c = Some f -> next c (KeyDown key) = onKeyDown key c.
Proof.
  intros H. unfold next, dispatch, handleEvent. rewrite H. reflexivity.
Qed.

(** C10: a key press delivered to the rendered input runs [onKeyDown]; the
    result is that of [handleNextStep] if and only if the key is exactly
    "Enter", and every other key leaves the state, and so the step, as it
    was. *)
Theorem keydown_advances_iff_Enter (c : Component) (f : Field) (key : string) :
  inputRef c = Some f ->
  next c (KeyDown key) = onKeyDown key c
  /\ (onKeyDown key c = handleNextStep c <-> key = "Enter"%string)
  /\ (step (form (next c (KeyDown key))) = step (form c) + 1
      <-> key = "Enter"%string)
  /\ (key <> "Enter"%string -> next c (KeyDown key) = c).
Proof.
  intros Hf. rewrite (next_KeyDown c f key Hf).
  split; [reflexivity|].
  destruct (String.eqb_spec key "Enter") as [-> | Hne].
  - rewrite onKeyDown_Enter, handleNextStep_step. repeat split; congruence.
  - rewrite (onKeyDown_other key c Hne). repeat split; try congruence.
    + intros H. symmetry in H. now apply handleNextStep_neq in H.
    + intros H. lia.
Qed.

Lemma keydown_advances_iff_Enter_witness :
  inputRef mount = Some Email
  /\ step (form (next mount (KeyDown "Enter"))) = 2
  /\ next mount (KeyDown "enter") = mount.
Proof.
  assert (H : inputRef mount = Some Email) by reflexivity.
  split; [exact H |]. split.
  - apply (proj1 (proj2 (proj2 (keydown_advances_iff_Enter mount Email "Enter" H)))).
    reflexivity.
  - apply (proj2 (proj2 (proj2 (keydown_advances_iff_Enter mount Email "enter" H)))).
    discriminate.
Defined.

(** ** The effect on a change of step *)

Lemma stepEffect_with_input c f :
  inputRef c = Some f -> step (form c) <> 1 -> stepEffect c = [showCaret; Focus].
Proof.
  intros Hf H1. unfold stepEffect, FIRST_STEP.
  destruct (Z.eqb_spec (step (form c)) 1); [contradiction|].
  unfold handleClick, handleVisibleSpan, handleFocusOnInput.
  change (spanRef c) with (inputRef c). rewrite Hf. reflexivity.
Qed.

Lemma stepEffect_no_input c : inputRef c = None -> stepEffect c = [].
Proof.
  intros H. unfold stepEffect. rewrite (handleClick_no_input c H).
  now destruct (step (form c) =? FIRST_STEP).
Qed.

Lemma stepEffect_first_step c : step (form c) = 1 -> stepEffect c = [].
Proof. intros H. unfold stepEffect, FIRST_STEP. now rewrite H. Qed.

(** C8, as stated, fails for the change from step 3 to step 4: the new step
    is greater than 1, the effect runs [handleClick], but no input and no
    caret are rendered at step 4, both refs are null, and neither the toggle
    nor the focus move is performed. *)
Lemma effect_at_review_counterexample :
  reachable atDescription
  /\ dispatch atDescription (KeyDown "Enter") = (review, [])
  /\ step (form atDescription) <> step (form review)
  /\ step (form review) > 1
  /\ count_occ Effect_eq_dec
       (useEffect (Some (step (form atDescription))) review) showCaret = 0%nat
  /\ count_occ Effect_eq_dec
       (useEffect (Some (step (form atDescription))) review) Focus = 0%nat.
Proof.
  split.
  - apply (reachable_runEvents
      [Change "a@b.com"; KeyDown "Enter"; Change "Ada"; KeyDown "Enter";
       Change "need help"] mount reachable_mount).
  - cbn. repeat split; (lia || discriminate).
Qed.

(** C8, amended: for every change of the step value, if the new step is 2
    or 3 the effect performs the caret toggle and then the focus move, each
    exactly once; if the new step is 4, where no input is rendered, or 1,
    it performs neither; and the effect of the initial mount performs
    neither. Whenever the new step is not 1 the effect is one run of
    [handleClick]. *)
Theorem effect_on_step_change (prev : Z) (c : Component) :
  prev <> step (form c) ->
  (step (form c) = 2 \/ step (form c) = 3 ->
     useEffect (Some prev) c = [showCaret; Focus]
     /\ count_occ Effect_eq_dec (useEffect (Some prev) c) showCaret = 1%nat
     /\ count_occ Effect_eq_dec (useEffect (Some prev) c) Focus = 1%nat)
  /\ (step (form c) = 4 \/ step (form c) = 1 -> useEffect (Some prev) c = [])
  /\ useEffect None mount = []
  /\ (step (form c) <> 1 -> useEffect (Some prev) c = handleClick c).
Proof.
  intros Hch. unfold useEffect at 1 2 3 4 6.
  destruct (Z.eqb_spec prev (step (form c))) as [E|_]; [contradiction|].
  split; [|split; [|split]]; cycle 3.
  { intros H1. unfold stepEffect, FIRST_STEP.
    destruct (Z.eqb_spec (step (form c)) 1); [contradiction | reflexivity]. }
  - intros H.
    assert (He : stepEffect c = [showCaret; Focus]).
    { destruct (inputRef c) as [f|] eqn:Hf.
      - apply (stepEffect_with_input c f Hf). lia.
      - apply inputRef_None in Hf. lia. }
    rewrite He. repeat split.
  - intros [H|H].
    + apply stepEffect_no_input, inputRef_None. lia.
    + now apply stepEffect_first_step.
  - reflexivity.
Qed.

Lemma effect_on_step_change_witness :
  (1 <> step (form (handleNextStep mount))
   /\ useEffect (Some 1) (handleNextStep mount) = [showCaret; Focus])
  /\ (3 <> step (form review) /\ useEffect (Some 3) review = []).
Proof.
  assert (H2 : 1 <> step (form (handleNextStep mount))) by (cbn; unfold FIRST_STEP; lia).
  assert (H4 : 3 <> step (form review)) by (cbn; unfold LAST_STEP; lia).
  split.
  - split; [exact H2 |].
    apply (proj1 (effect_on_step_change 1 (handleNextStep mount) H2)).
    left. reflexivity.
  - split; [exact H4 |].
    apply (proj1 (proj2 (effect_on_step_change 3 review H4))).
    left. reflexivity.
Defined.

(** * Further properties of the component *)

(** ** The page as a function of the state *)

Ltac open_render :=
  unfold inputRef, spanRef, buttonsRendered, render, emailStep, nameStep,
    descriptionStep, resultsAndButtons, sentNotice, isLastStep, fields,
    fieldStep, FIRST_STEP, LAST_STEP in *.

(** X1: for every state, the page shows, in order, the fields whose step is
    below the current one as completed text, then the input of the field
    whose step is the current one; a field whose step is above the current
    one is not shown at all. At step 4 the summary follows, with the
    buttons or, once sent, with the sent message. *)
Theorem render_layout (c : Component) :
  render c =
    map (fun g => CompletedField (getField g c))
        (filter (fun g => fieldStep g <? step (form c)) fields)
    ++ map (fun g => InputField g (getField g c))
        (filter (fun g => fieldStep g =? step (form c)) fields)
    ++ (if step (form c) =? 4
        then [ShowResult (email (form c)) (name (form c)) (description (form c));
              if isSubmitted c then SentMessage else Buttons]
        else if isSubmitted c then [SentMessage] else []).
Proof.
  destruct c as [[s n e d] b]. open_render.
  cbn [form step email name description isSubmitted filter map getField app].
  step_cases; destruct b; reflexivity.
Qed.

(** X2: the page never holds more than one input, and an input on the page
    belongs to the field of the current step and shows that field's current
    value. *)
Theorem render_single_input (c : Component) :
  (length (filter isInput (render c)) <= 1)%nat
  /\ forall f v, In (InputField f v) (render c) ->
       step (form c) = fieldStep f /\ v = getField f c /\ inputRef c = Some f.
Proof.
  destruct c as [[s n e d] b]. open_render.
  cbn [form step email name description isSubmitted getField].
  split.
  - step_cases; destruct b; cbn; lia.
  - intros f v. step_cases; destruct b; cbn; intros Hin;
      repeat match goal with
      | X : _ \/ _ |- _ => destruct X as [X|X]
      | X : False |- _ => destruct X
      | X : InputField _ _ = InputField _ _ |- _ => injection X as <- <-
      | X : _ = InputField _ _ |- _ => discriminate X
      end; cbn; repeat split; congruence.
Qed.

Lemma render_single_input_witness :
  In (InputField Description "need help") (render atDescription)
  /\ step (form atDescription) = fieldStep Description
  /\ inputRef atDescription = Some Description.
Proof.
  assert (H : In (InputField Description "need help") (render atDescription))
    by (cbn; auto).
  split; [exact H |].
  destruct (proj2 (render_single_input atDescription) _ _ H) as (Hs & _ & Hi).
  split; [exact Hs | exact Hi].
Defined.

(** X3: the input is controlled by the state: after a value is typed into
    the rendered input, the page holds exactly one input, that of the same
    field, showing the typed value. *)
Theorem typed_value_is_shown (c : Component) (f : Field) (v : string) :
  inputRef c = Some f ->
  filter isInput (render (next c (Change v))) = [InputField f v].
Proof.
  intros Hf. rewrite (next_Change f v c Hf).
  destruct (inputRef_Some c f Hf) as [[-> E]|[[-> E]|[-> E]]];
    destruct c as [[s n e d] b]; cbn in E; subst s; open_render; cbn;
    destruct b; reflexivity.
Qed.

Lemma typed_value_is_shown_witness :
  inputRef atDescription = Some Description
  /\ filter isInput (render (next atDescription (Change "hello")))
     = [InputField Description "hello"].
Proof.
  assert (H : inputRef atDescription = Some Description) by reflexivity.
  split; [exact H | exact (typed_value_is_shown atDescription Description _ H)].
Defined.

(** ** What one event can do *)

Lemma buttonsRendered_true c :
  buttonsRendered c = true -> step (form c) = 4 /\ isSubmitted c = false.
Proof.
  rewrite buttonsRendered_spec. intros H. apply andb_prop in H as [H4 Hs].
  apply Z.eqb_eq in H4. apply negb_true_iff in Hs. auto.
Qed.

Lemma next_outcome c e : Outcome c e (next c e).
Proof.
  unfold next, dispatch, handleEvent.
  destruct e as [v | key | | |].
  - destruct (inputRef c) as [f|] eqn:Hf; cbn [fst]; [now apply edited | constructor].
  - destruct (inputRef c) as [f|] eqn:Hf; cbn [fst]; [|constructor].
    unfold onKeyDown. destruct (String.eqb_spec key "Enter") as [-> | _];
      [now apply (advanced c f) | constructor].
  - constructor.
  - destruct (buttonsRendered c) eqn:Hb; cbn [fst]; [now apply restarted | constructor].
  - destruct (buttonsRendered c) eqn:Hb; cbn [fst handleSend];
      [now apply sent | constructor].
Qed.

Lemma inputRef_range c f : inputRef c = Some f -> 1 <= step (form c) <= 3.
Proof.
  intros Hf. destruct (inputRef_Some c f Hf) as [[_ E]|[[_ E]|[_ E]]]; lia.
Qed.

Lemma inputRef_fieldStep c f : inputRef c = Some f -> step (form c) = fieldStep f.
Proof.
  intros Hf. destruct (inputRef_Some c f Hf) as [[-> E]|[[-> E]|[-> E]]]; exact E.
Qed.

(** ** The reachable states *)

Lemma wellFormed_mount : wellFormed mount.
Proof.
  unfold wellFormed. cbn. unfold FIRST_STEP.
  split; [lia | split; [discriminate |]].
  intros g _. now destruct g.
Qed.

Lemma wellFormed_next c e : wellFormed c -> wellFormed (next c e).
Proof.
  intros (Hr & Hs & He).
  destruct (next_outcome c e) as [e | f v Hf | f Hf | Hb | Hb].
  - repeat split; auto; lia.
  - unfold wellFormed. rewrite onChange_step, onChange_isSubmitted.
    repeat split; auto; try lia.
    intros g Hg. rewrite onChange_others; [now apply He|].
    intros ->. apply inputRef_fieldStep in Hf. lia.
  - assert (H13 : 1 <= step (form c) <= 3) by exact (inputRef_range c f Hf).
    unfold wellFormed. rewrite handleNextStep_step.
    repeat split; try lia.
    + intros Hsub. apply Hs in Hsub. lia.
    + intros g Hg. transitivity (getField g c); [now destruct g|].
      apply He. lia.
  - change (handleRestart c) with mount. apply wellFormed_mount.
  - apply buttonsRendered_true in Hb as [H4 _].
    unfold wellFormed. cbn. repeat split; auto; try lia.
Qed.

Lemma reachable_wellFormed c : reachable c -> wellFormed c.
Proof.
  induction 1 as [|c e _ IH]; [apply wellFormed_mount | now apply wellFormed_next].
Qed.

Lemma wellFormed_reachable c : wellFormed c -> reachable c.
Proof.
  destruct c as [[s n e d] b]. intros (Hr & Hs & He).
  cbn [form step isSubmitted] in Hr, Hs, He.
  assert (Hn : s < 2 -> n = EmptyString) by (intros H; apply (He Name); exact H).
  assert (Hd : s < 3 -> d = EmptyString) by (intros H; apply (He Description); exact H).
  assert (Hb : s < 4 -> b = false)
    by (intros H; destruct b; [specialize (Hs eq_refl); lia | reflexivity]).
  clear He Hs.
  assert (Hcases : s = 1 \/ s = 2 \/ s = 3 \/ s = 4) by lia.
  destruct Hcases as [-> | [-> | [-> | ->]]].
  - rewrite Hn, Hd, Hb by lia.
    apply (reachable_runEvents [Change e] mount reachable_mount).
  - rewrite Hd, Hb by lia.
    apply (reachable_runEvents [Change e; KeyDown "Enter"; Change n]
             mount reachable_mount).
  - rewrite Hb by lia.
    apply (reachable_runEvents
             [Change e; KeyDown "Enter"; Change n; KeyDown "Enter"; Change d]
             mount reachable_mount).
  - destruct b.
    + apply (reachable_runEvents
               [Change e; KeyDown "Enter"; Change n; KeyDown "Enter"; Change d;
                KeyDown "Enter"; ClickSend]
               mount reachable_mount).
    + apply (reachable_runEvents
               [Change e; KeyDown "Enter"; Change n; KeyDown "Enter"; Change d;
                KeyDown "Enter"]
               mount reachable_mount).
Qed.

(** X4: the states the user can reach from the mounted component are
    exactly those where the step is between 1 and 4, the form is marked as
    sent only at step 4, and every field whose step lies ahead is still
    empty; the fields up to the current step can hold any text. *)
Theorem reachable_iff_wellFormed (c : Component) : reachable c <-> wellFormed c.
Proof.
  split; [apply reachable_wellFormed | apply wellFormed_reachable].
Qed.

(** ** One direction only *)

Lemma next_step_monotone c e :
  isClickRestart e = false ->
  step (form c) <= step (form (next c e)) <= step (form c) + 1.
Proof.
  intros He. destruct (next_outcome c e) as [e | f v Hf | f Hf | Hb | Hb];
    try discriminate He.
  - lia.
  - rewrite onChange_step. lia.
  - rewrite handleNextStep_step. lia.
  - cbn. lia.
Qed.

(** X5: without a restart the step never goes back: over any run of events
    that holds no click on Restart, the step does not decrease, and it grows
    by at most one per event. *)
Theorem step_never_decreases (es : list Event) (c : Component) :
  existsb isClickRestart es = false ->
  step (form c) <= step (form (runEvents c es))
                <= step (form c) + Z.of_nat (length es).
Proof.
  revert c. induction es as [|e es IH]; intros c H.
  - cbn. lia.
  - cbn [existsb] in H. apply orb_false_elim in H as [He Hes].
    cbn [runEvents fold_left length].
    specialize (IH (next c e) Hes). unfold runEvents in IH.
    pose proof (next_step_monotone c e He). lia.
Qed.

Lemma step_never_decreases_witness :
  existsb isClickRestart [KeyDown "Enter"; Click; Change "x"; ClickSend] = false
  /\ step (form mount)
     <= step (form (runEvents mount [KeyDown "Enter"; Click; Change "x"; ClickSend]))
     <= step (form mount) + 4.
Proof.
  assert (H : existsb isClickRestart
                [KeyDown "Enter"; Click; Change "x"; ClickSend] = false)
    by reflexivity.
  split; [exact H | exact (step_never_decreases _ mount H)].
Defined.

Lemma next_keeps_completed c e g :
  isClickRestart e = false -> fieldStep g < step (form c) ->
  getField g (next c e) = getField g c.
Proof.
  intros He Hg. destruct (next_outcome c e) as [e | f v Hf | f Hf | Hb | Hb];
    try discriminate He; try reflexivity.
  apply onChange_others. intros ->. apply inputRef_fieldStep in Hf. lia.
Qed.

(** X6: a field that has been passed cannot be edited any more: over any
    run of events that holds no click on Restart, every field whose step is
    below the current step keeps its value. *)
Theorem completed_fields_are_frozen (es : list Event) (c : Component) (g : Field) :
  existsb isClickRestart es = false ->
  fieldStep g < step (form c) ->
  getField g (runEvents c es) = getField g c.
Proof.
  revert c. induction es as [|e es IH]; intros c H Hg; [reflexivity|].
  cbn [existsb] in H. apply orb_false_elim in H as [He Hes].
  cbn [runEvents fold_left]. fold (runEvents (next c e) es).
  rewrite IH; [now apply next_keeps_completed | exact Hes |].
  pose proof (next_step_monotone c e He). lia.
Qed.

Lemma completed_fields_are_frozen_witness :
  existsb isClickRestart [Change "x"; KeyDown "Enter"; Change "y"; ClickSend] = false
  /\ fieldStep Email < step (form atDescription)
  /\ getField Email
       (runEvents atDescription [Change "x"; KeyDown "Enter"; Change "y"; ClickSend])
     = getField Email atDescription.
Proof.
  assert (H : existsb isClickRestart
                [Change "x"; KeyDown "Enter"; Change "y"; ClickSend] = false)
    by reflexivity.
  assert (Hg : fieldStep Email < step (form atDescription))
    by (cbn; unfold FIRST_STEP; lia).
  split; [exact H | split; [exact Hg |]].
  exact (completed_fields_are_frozen _ atDescription Email H Hg).
Defined.

(** ** States without controls *)

Lemma dispatch_no_controls c e :
  inputRef c = None -> buttonsRendered c = false -> dispatch c e = (c, []).
Proof.
  intros Hi Hb. unfold dispatch, handleEvent.
  destruct e; rewrite ?Hi, ?Hb, ?(handleClick_no_input c Hi);
    rewrite useEffect_same_step; reflexivity.
Qed.

Lemma inert_run c :
  (forall e, dispatch c e = (c, [])) ->
  forall es, runEvents c es = c /\ runTrace c es = [].
Proof.
  intros H es. induction es as [|e es [IH1 IH2]]; [split; reflexivity|].
  cbn [runEvents fold_left runTrace]. unfold next. rewrite (H e). cbn [fst snd].
  split; [exact IH1 | exact IH2].
Qed.

(** X7: sending is final: in a reachable state where the form is sent, no
    run of user events changes the state or performs any side effect (the
    buttons and the input are gone from the page). *)
Theorem sent_is_final (c : Component) (es : list Event) :
  reachable c -> isSubmitted c = true ->
  runEvents c es = c /\ runTrace c es = [].
Proof.
  intros Hr Hs. apply inert_run. intros e.
  destruct (reachable_wellFormed c Hr) as (_ & H4 & _). specialize (H4 Hs).
  apply dispatch_no_controls.
  - apply inputRef_None. lia.
  - rewrite buttonsRendered_spec, Hs. apply andb_false_r.
Qed.

Lemma sent_is_final_witness :
  reachable (next review ClickSend)
  /\ isSubmitted (next review ClickSend) = true
  /\ runEvents (next review ClickSend) [ClickRestart; KeyDown "Enter"; Click; ClickSend]
     = next review ClickSend
  /\ runTrace (next review ClickSend) [ClickRestart; KeyDown "Enter"; Click; ClickSend]
     = [].
Proof.
  assert (Hr : reachable (next review ClickSend)).
  { apply (reachable_runEvents
      [Change "a@b.com"; KeyDown "Enter"; Change "Ada"; KeyDown "Enter";
       Change "need help"; KeyDown "Enter"; ClickSend] mount reachable_mount). }
  assert (Hs : isSubmitted (next review ClickSend) = true) by reflexivity.
  split; [exact Hr | split; [exact Hs |]].
  exact (sent_is_final (next review ClickSend) _ Hr Hs).
Defined.

(** X8: a step outside 1..4 is a dead end: the page then holds neither an
    input nor the buttons, so no run of user events changes the state or
    performs a side effect. This is the state [handleNextStep] would produce
    if it were called at step 4. *)
Theorem out_of_range_step_is_stuck (c : Component) (es : list Event) :
  step (form c) < 1 \/ 4 < step (form c) ->
  runEvents c es = c /\ runTrace c es = [].
Proof.
  intros H. apply inert_run. intros e. apply dispatch_no_controls.
  - apply inputRef_None. lia.
  - rewrite buttonsRendered_spec.
    destruct (Z.eqb_spec (step (form c)) 4); [lia | reflexivity].
Qed.

Lemma out_of_range_step_is_stuck_witness :
  (step (form (handleNextStep review)) < 1 \/ 4 < step (form (handleNextStep review)))
  /\ runEvents (handleNextStep review) [Click; KeyDown "Enter"; ClickRestart]
     = handleNextStep review
  /\ runTrace (handleNextStep review) [Click; KeyDown "Enter"; ClickRestart] = [].
Proof.
  assert (H : step (form (handleNextStep review)) < 1
              \/ 4 < step (form (handleNextStep review)))
    by (right; cbn; unfold LAST_STEP; lia).
  split; [exact H | exact (out_of_range_step_is_stuck _ _ H)].
Defined.

(** ** The side effects of one event *)

Lemma handleClick_cases c :
  (inputRef c = None /\ handleClick c = [])
  \/ (1 <= step (form c) <= 3 /\ handleClick c = [showCaret; Focus]).
Proof.
  destruct (inputRef c) as [f|] eqn:Hf.
  - right. split; [exact (inputRef_range c f Hf)|].
    unfold handleClick, handleVisibleSpan, handleFocusOnInput.
    change (spanRef c) with (inputRef c). now rewrite Hf.
  - left. split; [reflexivity | now apply handleClick_no_input].
Qed.

Lemma dispatch_effects c e :
  snd (dispatch c e) = []
  \/ snd (dispatch c e) = [showCaret; Focus]
  \/ (e = ClickSend /\ buttonsRendered c = true
      /\ dispatch c e = (setIsSubmitted true c, [Alert "Form submitted!"])).
Proof.
  destruct e as [v | key | | |].
  - left. unfold dispatch, handleEvent.
    destruct (inputRef c) as [f|]; cbn [snd app];
      rewrite useEffect_same_step; try reflexivity. apply onChange_step.
  - unfold dispatch, handleEvent.
    destruct (inputRef c) as [f|] eqn:Hf; cbn [snd app];
      [|left; now rewrite useEffect_same_step].
    unfold onKeyDown. destruct (String.eqb key "Enter");
      [|left; now rewrite useEffect_same_step].
    pose proof (inputRef_range c f Hf) as Hr.
    unfold useEffect. rewrite handleNextStep_step.
    destruct (Z.eqb_spec (step (form c)) (step (form c) + 1)); [lia|].
    unfold stepEffect, FIRST_STEP. rewrite handleNextStep_step.
    destruct (Z.eqb_spec (step (form c) + 1) 1); [lia|].
    destruct (handleClick_cases (handleNextStep c)) as [[_ ->]|[_ ->]]; auto.
  - unfold dispatch, handleEvent. cbn [snd].
    rewrite useEffect_same_step, app_nil_r by reflexivity.
    destruct (handleClick_cases c) as [[_ ->]|[_ ->]]; auto.
  - left. unfold dispatch, handleEvent.
    destruct (buttonsRendered c) eqn:Hb; cbn [snd app];
      [|now rewrite useEffect_same_step].
    apply buttonsRendered_true in Hb as [H4 _].
    rewrite handleClick_no_input by (apply inputRef_None; lia).
    unfold useEffect. cbn [handleRestart setIsSubmitted setForm form step app].
    unfold FIRST_STEP. rewrite H4. reflexivity.
  - destruct (buttonsRendered c) eqn:Hb.
    + right. right. repeat split. now apply dispatch_ClickSend_shown.
    + left. now rewrite dispatch_ClickSend_hidden.
Qed.

(** X9: whatever the state and the event, one turn of the event loop
    performs either no side effect, or the caret toggle followed by the
    focus move (once each), or the alert of a send; the toggle and the focus
    move never come apart, never twice, and never together with the alert. *)
Theorem effects_of_one_event (c : Component) (e : Event) :
  snd (dispatch c e) = []
  \/ snd (dispatch c e) = [showCaret; Focus]
  \/ snd (dispatch c e) = [Alert "Form submitted!"].
Proof.
  destruct (dispatch_effects c e) as [H | [H | (_ & _ & H)]]; auto.
  right. right. now rewrite H.
Qed.

(** X10: the alert is shown only by a click on Send at step 4 of a form not
    yet sent; its text is "Form submitted!", and the same turn marks the
    form as sent and leaves the step and the fields alone. *)
Theorem alert_only_on_send (c : Component) (e : Event) (m : string) :
  In (Alert m) (snd (dispatch c e)) ->
  e = ClickSend
  /\ step (form c) = 4 /\ isSubmitted c = false
  /\ m = "Form submitted!"%string
  /\ next c e = setIsSubmitted true c.
Proof.
  intros Hin.
  destruct (dispatch_effects c e) as [H | [H | (He & Hb & H)]].
  - rewrite H in Hin. destruct Hin.
  - rewrite H in Hin. cbn in Hin. unfold showCaret in Hin.
    destruct Hin as [Hin | [Hin | []]]; discriminate Hin.
  - unfold next. rewrite H in *. cbn in Hin.
    destruct Hin as [[= <-] | []].
    apply buttonsRendered_true in Hb as [H4 Hs]. auto.
Qed.

Lemma alert_only_on_send_witness :
  In (Alert "Form submitted!") (snd (dispatch review ClickSend))
  /\ next review ClickSend = setIsSubmitted true review.
Proof.
  assert (H : In (Alert "Form submitted!") (snd (dispatch review ClickSend)))
    by (left; reflexivity).
  split; [exact H |].
  exact (proj2 (proj2 (proj2 (proj2 (alert_only_on_send review ClickSend _ H))))).
Defined.

Lemma alerts_bound es :
  forall c, (length (filter isAlert (runTrace c es))
             <= if isSubmitted c then 0 else 1)%nat.
Proof.
  induction es as [|e es IH]; intros c.
  - cbn. destruct (isSubmitted c); lia.
  - cbn [runTrace]. rewrite filter_app, length_app.
    specialize (IH (next c e)).
    destruct (dispatch_effects c e) as [H | [H | (He & Hb & H)]].
    + rewrite H. cbn [filter length Nat.add].
      destruct (isSubmitted c) eqn:Hs;
        [|revert IH; destruct (isSubmitted (next c e)); lia].
      now rewrite (next_keeps_sent c e Hs) in IH.
    + rewrite H. change (filter isAlert [showCaret; Focus]) with (@nil Effect).
      cbn [length Nat.add].
      destruct (isSubmitted c) eqn:Hs;
        [|revert IH; destruct (isSubmitted (next c e)); lia].
      now rewrite (next_keeps_sent c e Hs) in IH.
    + apply buttonsRendered_true in Hb as [_ Hs]. rewrite Hs.
      unfold next in *. rewrite H in *. cbn [fst snd filter isAlert length isSubmitted setIsSubmitted Nat.add] in *. lia.
Qed.

(** X11: a mounted form alerts at most once: over any run of user events,
    from any state, the trace of side effects holds at most one alert, and
    none at all if the form was already sent at the start. *)
Theorem at_most_one_alert (c : Component) (es : list Event) :
  (length (filter isAlert (runTrace c es)) <= 1)%nat
  /\ (isSubmitted c = true -> filter isAlert (runTrace c es) = []).
Proof.
  pose proof (alerts_bound es c) as H. split.
  - destruct (isSubmitted c); lia.
  - intros Hs. rewrite Hs in H.
    destruct (filter isAlert (runTrace c es)); [reflexivity | cbn in H; lia].
Qed.

Lemma at_most_one_alert_witness :
  isSubmitted (next review ClickSend) = true
  /\ filter isAlert (runTrace (next review ClickSend) [ClickSend; ClickSend]) = [].
Proof.
  assert (H : isSubmitted (next review ClickSend) = true) by reflexivity.
  split; [exact H |].
  exact (proj2 (at_most_one_alert (next review ClickSend) [ClickSend; ClickSend]) H).
Defined.

(** X12: a click on Restart at the review step of a form not yet sent gives
    back the component as mounted and performs no side effect: the new
    first input is neither focused nor given a visible caret. *)
Theorem restart_click_remounts (c : Component) :
  step (form c) = 4 -> isSubmitted c = false ->
  dispatch c ClickRestart = (mount, []).
Proof.
  intros H4 Hs.
  assert (Hb : buttonsRendered c = true)
    by (rewrite buttonsRendered_spec, H4, Hs; reflexivity).
  destruct (dispatch_effects c ClickRestart) as [H | [H | (He & _)]];
    try discriminate He;
    unfold dispatch, handleEvent in *; rewrite Hb in *; cbn [snd] in H.
  - now rewrite H.
  - rewrite handleClick_no_input in H by (apply inputRef_None; lia).
    unfold useEffect in H. cbn in H. rewrite H4 in H. discriminate H.
Qed.

Lemma restart_click_remounts_witness :
  step (form review) = 4 /\ isSubmitted review = false
  /\ dispatch review ClickRestart = (mount, []).
Proof.
  assert (H4 : step (form review) = 4) by reflexivity.
  assert (Hs : isSubmitted review = false) by reflexivity.
  split; [exact H4 | split; [exact Hs |]].
  exact (restart_click_remounts review H4 Hs).
Defined.

(** X13: a click on the form surface never changes the state; it shows the
    caret and focuses the input exactly when an input is on the page, that
    is at steps 1, 2 and 3, and does nothing at any other step. *)
Theorem surface_click (c : Component) :
  dispatch c Click =
    (c, if (1 <=? step (form c)) && (step (form c) <=? 3)
        then [showCaret; Focus] else []).
Proof.
  unfold dispatch, handleEvent.
  rewrite useEffect_same_step, app_nil_r by reflexivity.
  destruct (handleClick_cases c) as [[Hn ->]|[Hr ->]].
  - apply inputRef_None in Hn.
    destruct (Z.leb_spec 1 (step (form c))), (Z.leb_spec (step (form c)) 3);
      cbn [andb]; try reflexivity. lia.
  - destruct (Z.leb_spec 1 (step (form c))), (Z.leb_spec (step (form c)) 3);
      cbn [andb]; try reflexivity; lia.
Qed.

(** X15: Enter in the rendered input advances the step and, when the next
    step has an input of its own (the current step is 1 or 2), that turn
    also shows the caret and focuses the new input; Enter at step 3 leads to
    the review step and performs no side effect. *)
Theorem enter_moves_focus (c : Component) (f : Field) :
  inputRef c = Some f ->
  dispatch c (KeyDown "Enter") =
    (handleNextStep c,
     if step (form c) <? 3 then [showCaret; Focus] else []).
Proof.
  intros Hf. pose proof (inputRef_range c f Hf) as Hr.
  unfold dispatch, handleEvent. rewrite Hf, onKeyDown_Enter. cbn [app].
  f_equal. unfold useEffect. rewrite handleNextStep_step.
  destruct (Z.eqb_spec (step (form c)) (step (form c) + 1)); [lia|].
  unfold stepEffect, FIRST_STEP. rewrite handleNextStep_step.
  destruct (Z.eqb_spec (step (form c) + 1) 1); [lia|].
  destruct (handleClick_cases (handleNextStep c)) as [[Hn ->]|[Hs ->]].
  - apply inputRef_None in Hn. rewrite handleNextStep_step in Hn.
    destruct (Z.ltb_spec (step (form c)) 3); [lia | reflexivity].
  - rewrite handleNextStep_step in Hs.
    destruct (Z.ltb_spec (step (form c)) 3); [reflexivity | lia].
Qed.

Lemma enter_moves_focus_witness :
  inputRef mount = Some Email
  /\ dispatch mount (KeyDown "Enter") = (handleNextStep mount, [showCaret; Focus]).
Proof.
  assert (H : inputRef mount = Some Email) by reflexivity.
  split; [exact H | exact (enter_moves_focus mount Email H)].
Defined.

(** ** The whole conversation *)

Lemma onChange_same f c : onChange f (getField f c) c = c.
Proof. destruct c as [[s n e d] b], f; reflexivity. Qed.

Lemma onChange_twice f v w c : onChange f w (onChange f v c) = onChange f w c.
Proof. destruct f; reflexivity. Qed.

Lemma runEvents_Changes_eq (vs : list string) :
  forall c f, inputRef c = Some f ->
    runEvents c (map Change vs) = onChange f (last vs (getField f c)) c.
Proof.
  induction vs as [|v vs IH]; intros c f Hf.
  - cbn. symmetry. apply onChange_same.
  - cbn [map runEvents fold_left]. rewrite (next_Change f v c Hf).
    fold (runEvents (onChange f v c) (map Change vs)).
    rewrite (IH _ f) by (now rewrite onChange_inputRef).
    now rewrite onChange_written, onChange_twice, last_cons.
Qed.

Lemma runTrace_Changes (vs : list string) : forall c, runTrace c (map Change vs) = [].
Proof.
  induction vs as [|v vs IH]; intros c; [reflexivity|].
  cbn [map runTrace]. rewrite IH, app_nil_r.
  destruct (dispatch_effects c (Change v)) as [H | [H | (He & _)]];
    [exact H | | discriminate He].
  exfalso. revert H. unfold dispatch, handleEvent.
  destruct (inputRef c); cbn [snd app]; rewrite useEffect_same_step;
    try discriminate; try reflexivity. apply onChange_step.
Qed.

Lemma runEvents_app c es1 es2 :
  runEvents c (es1 ++ es2) = runEvents (runEvents c es1) es2.
Proof. apply fold_left_app. Qed.

Lemma runTrace_app es1 :
  forall c es2,
    runTrace c (es1 ++ es2) = runTrace c es1 ++ runTrace (runEvents c es1) es2.
Proof.
  induction es1 as [|e es1 IH]; intros c es2; [reflexivity|].
  cbn [app runTrace runEvents fold_left]. rewrite IH, app_assoc. reflexivity.
Qed.

Section OneQuestion.

Variables (c : Component) (f : Field) (vs : list string) (es : list Event).
Hypothesis Hf : inputRef c = Some f.

Let answered : Component := onChange f (last vs (getField f c)) c.

Lemma answered_inputRef : inputRef answered = Some f.
Proof. unfold answered. now rewrite onChange_inputRef. Qed.

Lemma runEvents_question :
  runEvents c (map Change vs ++ KeyDown "Enter" :: es)
  = runEvents (handleNextStep answered) es.
Proof.
  rewrite runEvents_app, (runEvents_Changes_eq vs c f Hf).
  fold answered. unfold runEvents. cbn [fold_left].
  now rewrite (next_KeyDown _ f "Enter" answered_inputRef), onKeyDown_Enter.
Qed.

Lemma runTrace_question :
  runTrace c (map Change vs ++ KeyDown "Enter" :: es)
  = snd (dispatch answered (KeyDown "Enter"))
    ++ runTrace (handleNextStep answered) es.
Proof.
  rewrite runTrace_app, runTrace_Changes, (runEvents_Changes_eq vs c f Hf).
  fold answered. cbn [app runTrace].
  now rewrite (next_KeyDown _ f "Enter" answered_inputRef), onKeyDown_Enter.
Qed.

End OneQuestion.

(** X14: the whole conversation: starting from the mounted component, any
    edits of the email, Enter, any edits of the name, Enter, any edits of
    the description, Enter, lead to step 4 with each field holding the last
    value typed for it (the empty string if nothing was typed), not yet
    sent. Along the way the caret is shown and the input focused once for
    the name and once for the description, and the page at the end shows the
    three answers, their summary and the buttons. *)
Theorem whole_conversation (vs1 vs2 vs3 : list string) :
  let es := map Change vs1 ++ KeyDown "Enter"
              :: map Change vs2 ++ KeyDown "Enter"
              :: map Change vs3 ++ [KeyDown "Enter"] in
  let e := last vs1 EmptyString in
  let n := last vs2 EmptyString in
  let d := last vs3 EmptyString in
  runEvents mount es
    = {| form := {| step := 4; name := n; email := e; description := d |};
         isSubmitted := false |}
  /\ runTrace mount es = [showCaret; Focus; showCaret; Focus]
  /\ render (runEvents mount es)
     = [CompletedField e; CompletedField n; CompletedField d;
        ShowResult e n d; Buttons].
Proof.
  intros es e n d.
  assert (Hrun : runEvents mount es
    = {| form := {| step := 4; name := n; email := e; description := d |};
         isSubmitted := false |}).
  { unfold es.
    rewrite (runEvents_question mount Email vs1) by reflexivity.
    rewrite (runEvents_question _ Name vs2) by reflexivity.
    rewrite (runEvents_question _ Description vs3) by reflexivity.
    reflexivity. }
  split; [exact Hrun | split].
  - unfold es.
    rewrite (runTrace_question mount Email vs1) by reflexivity.
    rewrite (runTrace_question _ Name vs2) by reflexivity.
    rewrite (runTrace_question _ Description vs3) by reflexivity.
    reflexivity.
  - rewrite Hrun. reflexivity.
Qed.
